(** * Static CUDA device properties by SM architectural version

    A shallow embedding of [cub/arch_device_props.cuh]: the per-architecture
    enums of [ArchDeviceProps<SM_ARCH>], the derived (empty) specialisations,
    the primary template for unknown architectures, [PtxDeviceProps], the
    [CUB_PTX_ARCH] / [CNP_ENABLED] macros, and the chain of static
    [Callback] members that maps a runtime [sm_version] to one of the
    specialisations and calls back into a client object.

    Integers of the source ([int] template arguments, [int sm_version],
    enumerators) are modelled in [Z]; the code only compares them with
    constants, so no wrap-around is involved. *)

From Stdlib Require Import ZArith Bool List Lia.
From Stdlib Require Ascii String.
Import ListNotations.
Open Scope Z_scope.

(** ** Compiler pass: [CUB_PTX_ARCH] and [CNP_ENABLED] *)

(** [__CUDA_ARCH__] is defined in the device pass only: [None] is the host
    pass, [Some a] a device pass whose [__CUDA_ARCH__] expands to [a]. *)
Definition CUB_PTX_ARCH (cuda_arch : option Z) : Z :=
  match cuda_arch with
  | None => 0          (* Host path *)
  | Some a => a        (* Device path *)
  end.

(** [#define CNP_ENABLED ((CUB_PTX_ARCH == 0) || (CUB_PTX_ARCH >= 350))] *)
Definition CNP_ENABLED (cuda_arch : option Z) : bool :=
  (CUB_PTX_ARCH cuda_arch =? 0) || (CUB_PTX_ARCH cuda_arch >=? 350).

(** ** The enum of one architecture *)

Record DeviceProps : Type := {
  LOG_WARP_THREADS    : Z;
  WARP_THREADS        : Z;
  LOG_SMEM_BANKS      : Z;
  SMEM_BANKS          : Z;
  SMEM_BANK_BYTES     : Z;
  SMEM_BYTES          : Z;
  SMEM_ALLOC_UNIT     : Z;
  REGS_BY_BLOCK       : bool;
  REG_ALLOC_UNIT      : Z;
  WARP_ALLOC_UNIT     : Z;
  MAX_SM_THREADS      : Z;
  MAX_SM_THREADBLOCKS : Z;
  MAX_BLOCK_THREADS   : Z;
  MAX_SM_REGISTERS    : Z
}.

(** The four specialisations that have a body of their own (an enum and a
    [Callback]).  Inside such a body the injected class name
    [ArchDeviceProps] denotes that specialisation, also when the member is
    reached through a derived struct. *)
Inductive SmArch : Type := SM10 | SM12 | SM20 | SM30.

Definition sm_arch (a : SmArch) : Z :=
  match a with
  | SM10 => 100
  | SM12 => 120
  | SM20 => 200
  | SM30 => 300
  end.

(** ** The client object of [Callback]

    [template <typename T> ... Callback(T &target, int sm_version)] asks of
    [T] one thing: a member template [Callback<Props>()] without value
    arguments.  [target] is passed by reference, so the call is a state
    transformer on [T]; the template argument is the selected
    specialisation. *)
Class Target (T : Type) : Type :=
  target_Callback : SmArch -> T -> T.

(** ** [ArchDeviceProps<300>]: device properties for SM30 *)
Module Arch300.

Definition enum : DeviceProps :=
  let log_warp_threads := 5 in
  let log_smem_banks := 5 in
  {| LOG_WARP_THREADS    := log_warp_threads;
     WARP_THREADS        := Z.shiftl 1 log_warp_threads;
     LOG_SMEM_BANKS      := log_smem_banks;
     SMEM_BANKS          := Z.shiftl 1 log_smem_banks;
     SMEM_BANK_BYTES     := 4;
     SMEM_BYTES          := 48 * 1024;
     SMEM_ALLOC_UNIT     := 256;
     REGS_BY_BLOCK       := false;
     REG_ALLOC_UNIT      := 256;
     WARP_ALLOC_UNIT     := 4;
     MAX_SM_THREADS      := 2048;
     MAX_SM_THREADBLOCKS := 16;
     MAX_BLOCK_THREADS   := 1024;
     MAX_SM_REGISTERS    := 64 * 1024 |}.

Definition Callback {T : Type} {tgt : Target T} (target : T) (sm_version : Z) : T :=
  target_Callback SM30 target.

End Arch300.

(** ** [ArchDeviceProps<200>]: device properties for SM20 *)
Module Arch200.

Definition enum : DeviceProps :=
  let log_warp_threads := 5 in
  let log_smem_banks := 5 in
  {| LOG_WARP_THREADS    := log_warp_threads;
     WARP_THREADS        := Z.shiftl 1 log_warp_threads;
     LOG_SMEM_BANKS      := log_smem_banks;
     SMEM_BANKS          := Z.shiftl 1 log_smem_banks;
     SMEM_BANK_BYTES     := 4;
     SMEM_BYTES          := 48 * 1024;
     SMEM_ALLOC_UNIT     := 128;
     REGS_BY_BLOCK       := false;
     REG_ALLOC_UNIT      := 64;
     WARP_ALLOC_UNIT     := 2;
     MAX_SM_THREADS      := 1536;
     MAX_SM_THREADBLOCKS := 8;
     MAX_BLOCK_THREADS   := 1024;
     MAX_SM_REGISTERS    := 32 * 1024 |}.

Definition Callback {T : Type} {tgt : Target T} (target : T) (sm_version : Z) : T :=
  if sm_version >? 200
  then Arch300.Callback target sm_version
  else target_Callback SM20 target.

End Arch200.

(** ** [ArchDeviceProps<120>]: device properties for SM12 *)
Module Arch120.

Definition enum : DeviceProps :=
  let log_warp_threads := 5 in
  let log_smem_banks := 4 in
  {| LOG_WARP_THREADS    := log_warp_threads;
     WARP_THREADS        := Z.shiftl 1 log_warp_threads;
     LOG_SMEM_BANKS      := log_smem_banks;
     SMEM_BANKS          := Z.shiftl 1 log_smem_banks;
     SMEM_BANK_BYTES     := 4;
     SMEM_BYTES          := 16 * 1024;
     SMEM_ALLOC_UNIT     := 512;
     REGS_BY_BLOCK       := true;
     REG_ALLOC_UNIT      := 512;
     WARP_ALLOC_UNIT     := 2;
     MAX_SM_THREADS      := 1024;
     MAX_SM_THREADBLOCKS := 8;
     MAX_BLOCK_THREADS   := 512;
     MAX_SM_REGISTERS    := 16 * 1024 |}.

Definition Callback {T : Type} {tgt : Target T} (target : T) (sm_version : Z) : T :=
  if sm_version >? 120
  then Arch200.Callback target sm_version
  else target_Callback SM12 target.

End Arch120.

(** ** [ArchDeviceProps<100>]: device properties for SM10 *)
Module Arch100.

Definition enum : DeviceProps :=
  let log_warp_threads := 5 in
  let log_smem_banks := 4 in
  {| LOG_WARP_THREADS    := log_warp_threads;
     WARP_THREADS        := Z.shiftl 1 log_warp_threads;
     LOG_SMEM_BANKS      := log_smem_banks;
     SMEM_BANKS          := Z.shiftl 1 log_smem_banks;
     SMEM_BANK_BYTES     := 4;
     SMEM_BYTES          := 16 * 1024;
     SMEM_ALLOC_UNIT     := 512;
     REGS_BY_BLOCK       := true;
     REG_ALLOC_UNIT      := 256;
     WARP_ALLOC_UNIT     := 2;
     MAX_SM_THREADS      := 768;
     MAX_SM_THREADBLOCKS := 8;
     MAX_BLOCK_THREADS   := 512;
     MAX_SM_REGISTERS    := 8 * 1024 |}.

Definition Callback {T : Type} {tgt : Target T} (target : T) (sm_version : Z) : T :=
  if sm_version >? 100
  then Arch120.Callback target sm_version
  else target_Callback SM10 target.

End Arch100.

(** The enum seen through a body. *)
Definition enum_of (a : SmArch) : DeviceProps :=
  match a with
  | SM10 => Arch100.enum
  | SM12 => Arch120.enum
  | SM20 => Arch200.enum
  | SM30 => Arch300.enum
  end.

(** ** Template instantiation of [ArchDeviceProps<SM_ARCH>]

    For every [SM_ARCH] the source gives one declaration: a specialisation
    with a body, an empty specialisation deriving from one, or the primary
    template (unknown architecture), which derives from SM10. *)
Inductive Declaration : Type :=
| Body (a : SmArch)
| Derives (base : SmArch)
| Unknown.

Definition declaration (SM_ARCH : Z) : Declaration :=
  if SM_ARCH =? 300 then Body SM30
  else if SM_ARCH =? 200 then Body SM20
  else if SM_ARCH =? 120 then Body SM12
  else if SM_ARCH =? 100 then Body SM10
  else if SM_ARCH =? 350 then Derives SM30      (* Derives from SM30 *)
  else if SM_ARCH =? 210 then Derives SM20      (* Derives from SM20 *)
  else if SM_ARCH =? 130 then Derives SM12      (* Derives from SM12 *)
  else if SM_ARCH =? 110 then Derives SM10      (* Derives from SM10 *)
  else Unknown.

(** The body whose members [ArchDeviceProps<SM_ARCH>] exposes. *)
Definition ArchDeviceProps (SM_ARCH : Z) : SmArch :=
  match declaration SM_ARCH with
  | Body a => a
  | Derives base => base
  | Unknown => SM10                             (* Derives from SM10 *)
  end.

(** The enumerators of [ArchDeviceProps<SM_ARCH>], own or inherited. *)
Definition ArchDeviceProps_enum (SM_ARCH : Z) : DeviceProps :=
  enum_of (ArchDeviceProps SM_ARCH).

(** The static member [ArchDeviceProps<SM_ARCH>::Callback], own or
    inherited. *)
Definition ArchDeviceProps_Callback {T : Type} {tgt : Target T}
    (SM_ARCH : Z) (target : T) (sm_version : Z) : T :=
  match ArchDeviceProps SM_ARCH with
  | SM10 => Arch100.Callback target sm_version
  | SM12 => Arch120.Callback target sm_version
  | SM20 => Arch200.Callback target sm_version
  | SM30 => Arch300.Callback target sm_version
  end.

(** [struct PtxDeviceProps : ArchDeviceProps<CUB_PTX_ARCH> {}] *)
Definition PtxDeviceProps (cuda_arch : option Z) : SmArch :=
  ArchDeviceProps (CUB_PTX_ARCH cuda_arch).

(** ** An observing client

    A client whose [Callback<Props>()] appends [Props] to a log: the log
    after a call of the chain lists the client invocations it made, in
    order. *)
Definition Recorder : Target (list SmArch) :=
  fun a log => log ++ [a].

Definition invocations (sm_version : Z) : list SmArch :=
  Arch100.Callback (tgt := Recorder) [] sm_version.

(** The empty specialisations of the source, as pairs (derived, base). *)
Definition derived_specialisations : list (Z * Z) :=
  [(350, 300); (210, 200); (130, 120); (110, 100)].

(** A client that keeps the specialisation it was last called with. *)
Definition Selector : Target SmArch :=
  fun a _ => a.

(** The specialisation the chain entered at SM10 hands to its client. *)
Definition selected (sm_version : Z) : SmArch :=
  Arch100.Callback (tgt := Selector) SM10 sm_version.

(** Fieldwise agreement of two enums. *)
Definition same_fields (p q : DeviceProps) : Prop :=
  LOG_WARP_THREADS p = LOG_WARP_THREADS q /\
  WARP_THREADS p = WARP_THREADS q /\
  LOG_SMEM_BANKS p = LOG_SMEM_BANKS q /\
  SMEM_BANKS p = SMEM_BANKS q /\
  SMEM_BANK_BYTES p = SMEM_BANK_BYTES q /\
  SMEM_BYTES p = SMEM_BYTES q /\
  SMEM_ALLOC_UNIT p = SMEM_ALLOC_UNIT q /\
  REGS_BY_BLOCK p = REGS_BY_BLOCK q /\
  REG_ALLOC_UNIT p = REG_ALLOC_UNIT q /\
  WARP_ALLOC_UNIT p = WARP_ALLOC_UNIT q /\
  MAX_SM_THREADS p = MAX_SM_THREADS q /\
  MAX_SM_THREADBLOCKS p = MAX_SM_THREADBLOCKS q /\
  MAX_BLOCK_THREADS p = MAX_BLOCK_THREADS q /\
  MAX_SM_REGISTERS p = MAX_SM_REGISTERS q.

(** The enumerators that measure a capacity, compared pointwise. *)
Definition capacity_le (p q : DeviceProps) : Prop :=
  SMEM_BYTES p <= SMEM_BYTES q /\
  SMEM_BANKS p <= SMEM_BANKS q /\
  WARP_THREADS p <= WARP_THREADS q /\
  MAX_SM_THREADS p <= MAX_SM_THREADS q /\
  MAX_SM_THREADBLOCKS p <= MAX_SM_THREADBLOCKS q /\
  MAX_BLOCK_THREADS p <= MAX_BLOCK_THREADS q /\
  MAX_SM_REGISTERS p <= MAX_SM_REGISTERS q.

(** The later of two bodies (the one with the larger id). *)
Definition later (a b : SmArch) : SmArch :=
  if sm_arch a <? sm_arch b then b else a.

(** * The CUDA test driver

    A shallow embedding of [testing/backend/cuda/testframework.cu].  The HIP
    runtime, [atoi], [exit] and the base class [UnitTestDriver] are not
    part of the file: they are the operations of [Runtime], over an
    abstract [World].  A HIP query that returns through a pointer yields
    [Some x] when it stores [x] and [None] when it leaves the pointee as
    it was.  [std::cout] is the list of the values inserted so far. *)
Module CUDATestDriver.
Import Ascii String.

(** Signed 32-bit wrap-around of [int] arithmetic. *)
Definition int_wrap (z : Z) : Z :=
  (z + 2 ^ 31) mod 2 ^ 32 - 2 ^ 31.

(** The members of [hipDeviceProp_t] the file reads. *)
Record hipDeviceProp_t : Type := {
  major : Z;
  minor : Z;
  name : string;
  totalGlobalMem : Z
}.

(** [ArgumentMap] is a [std::map] from strings to strings, seen through
    [find]; [ArgumentSet] is only handed on to the base class. *)
Definition ArgumentMap : Type := string -> option string.
Definition ArgumentSet : Type := list string.

(** [kwargs.count(key)] as a truth value. *)
Definition count (kwargs : ArgumentMap) (key : string) : bool :=
  match kwargs key with
  | Some _ => true
  | None => false
  end.

(** One insertion into [std::cout]. *)
Inductive Out : Type :=
| Str (s : string)
| Int (n : Z)
| Endl.

Inductive Outcome : Type :=
| Returned (result : bool)
| Exited (status : Z)            (* [exit(status)] *)
| Threw.                         (* an exception leaves the function *)

Class Runtime (World : Type) : Type := {
  hipSuccess : Z;
  hipErrorMemoryAllocation : Z;
  EXIT_FAILURE : Z;
  hipGetLastError : World -> Z * World;
  hipGetErrorString : Z -> string;
  hipGetDeviceCount : World -> option Z * World;
  hipGetDevice : World -> option Z * World;
  hipSetDevice : Z -> World -> World;
  hipGetDeviceProperties : Z -> World -> option hipDeviceProp_t * World;
  (** [hipFuncGetAttributes(&attr, dummy_kernel)]; [attr] is not read *)
  hipFuncGetAttributes : World -> Z * World;
  atoi : string -> Z;
  (** [UnitTestDriver::run_tests]: its result and what it prints *)
  UnitTestDriver_run_tests :
    ArgumentSet -> ArgumentMap -> World -> bool * list Out * World;
  (** what a local holds that was declared without an initialiser *)
  indeterminate_int : Z;
  indeterminate_prop : hipDeviceProp_t
}.

(** The content of a variable after a query was given its address. *)
Definition out_param {X : Type} (before : X) (stored : option X) : X :=
  match stored with
  | Some x => x
  | None => before
  end.

Record State (World : Type) : Type := {
  world : World;
  cout : list Out
}.
Arguments world {World} _.
Arguments cout {World} _.

Definition put {World : Type} (s : State World) (items : list Out) : State World :=
  {| world := world s; cout := cout s ++ items |}.

Definition dquote : string := String (ascii_of_nat 34) EmptyString.
Definition newline : string := String (ascii_of_nat 10) EmptyString.
Definition tab : string := String (ascii_of_nat 9) EmptyString.

Definition binary_exists_for_current_device {World : Type} {rt : Runtime World}
    (w : World) : bool * World :=
  let '(error, w) := hipFuncGetAttributes w in
  (error =? hipSuccess, w).

(** The body of the loop of [list_devices] and the loop itself, bounded by
    [fuel]. *)
Definition list_devices_body {World : Type} {rt : Runtime World}
    (dev deviceCount selected_device : Z) (s : State World) : State World :=
  let '(stored, w) := hipGetDeviceProperties dev (world s) in
  let deviceProp := out_param indeterminate_prop stored in
  let s := {| world := w; cout := cout s |} in
  let s :=
    if dev =? 0 then
      if (major deviceProp =? 9999) && (minor deviceProp =? 9999)
      then put s [Str "There is no device supporting CUDA."; Endl]
      else if deviceCount =? 1
      then put s [Str "There is 1 device supporting CUDA"; Endl]
      else put s [Str "There are "; Int deviceCount;
                  Str " devices supporting CUDA"; Endl]
    else s in
  let s := put s [Str (newline ++ "Device "); Int dev; Str (": " ++ dquote);
                  Str (name deviceProp); Str dquote] in
  let s := if dev =? selected_device then put s [Str "  [SELECTED]"] else s in
  let s := put s [Endl] in
  let s := put s [Str "  Major revision number:                         ";
                  Int (major deviceProp); Endl] in
  let s := put s [Str "  Minor revision number:                         ";
                  Int (minor deviceProp); Endl] in
  put s [Str "  Total amount of global memory:                 ";
         Int (totalGlobalMem deviceProp); Str " bytes"; Endl].

Fixpoint list_devices_loop {World : Type} {rt : Runtime World}
    (fuel : nat) (dev deviceCount selected_device : Z) (s : State World)
    : State World :=
  match fuel with
  | O => s
  | S fuel =>
      if dev <? deviceCount then
        list_devices_loop fuel (dev + 1) deviceCount selected_device
          (list_devices_body dev deviceCount selected_device s)
      else s
  end.

Definition list_devices {World : Type} {rt : Runtime World}
    (s : State World) : State World :=
  let '(stored, w) := hipGetDeviceCount (world s) in
  let deviceCount := out_param indeterminate_int stored in
  let s := {| world := w; cout := cout s |} in
  let s := if deviceCount =? 0
           then put s [Str "There is no device supporting CUDA"; Endl]
           else s in
  let '(stored, w) := hipGetDevice (world s) in
  let selected_device := out_param indeterminate_int stored in
  let s := {| world := w; cout := cout s |} in
  let s := list_devices_loop (Z.to_nat deviceCount) 0 deviceCount
             selected_device s in
  put s [Endl].

(** [++iter] on an iterator, seen as the rest of the range it walks. *)
Definition my_next {A : Type} (iter : list A) : list A :=
  tl iter.

(** [result[i] = x] on a [std::vector]. *)
Fixpoint assign (result : list Z) (i : nat) (x : Z) : list Z :=
  match result, i with
  | [], _ => []
  | _ :: rest, O => x :: rest
  | y :: rest, S i => y :: assign rest i x
  end.

Fixpoint iota_loop (fuel : nat) (i count : Z) (result : list Z) : list Z :=
  match fuel with
  | O => result
  | S fuel =>
      if i <? count
      then iota_loop fuel (i + 1) count (assign result (Z.to_nat i) i)
      else result
  end.

(** [None] is the exception of [resize] for a negative [count], which as a
    [size_t] exceeds [max_size()]. *)
Definition target_devices {World : Type} {rt : Runtime World}
    (kwargs : ArgumentMap) (w : World) : option (list Z) * World :=
  let device_id :=
    match kwargs "device"%string with
    | Some value => atoi value
    | None => -1
    end in
  if device_id <? 0 then
    let '(stored, w) := hipGetDeviceCount w in
    let count := out_param 0 stored in
    if count <? 0 then (None, w)
    else
      let result := repeat 0 (Z.to_nat count) in
      (Some (iota_loop (Z.to_nat count) 0 count result), w)
  else (Some [device_id], w).

Definition check_cuda_error {World : Type} {rt : Runtime World}
    (concise : bool) (s : State World) : bool * State World :=
  let '(error, w) := hipGetLastError (world s) in
  let s := {| world := w; cout := cout s |} in
  let s :=
    if negb (error =? 0) then
      if negb concise then
        put (put (put s [Str "[ERROR] CUDA Error detected before running tests: ["])
                 [Str (hipGetErrorString error)])
            [Str "]"; Endl]
      else s
    else s in
  (negb (error =? 0), s).

Definition post_test_sanity_check {World : Type} {rt : Runtime World}
    (test_name : string) (concise : bool) (s : State World)
    : bool * State World :=
  let '(error, w) := hipGetLastError (world s) in
  let s := {| world := w; cout := cout s |} in
  let s :=
    if negb (error =? 0) && negb (error =? hipErrorMemoryAllocation) then
      if negb concise then
        put (put (put s [Str (tab ++ "[ERROR] CUDA Error detected after running ");
                         Str test_name; Str ": ["])
                 [Str (hipGetErrorString error)])
            [Str "]"; Endl]
      else s
    else s in
  (error =? hipSuccess, s).

(** The loop of [run_tests]: [device] is the iterator (the devices still to
    visit), [size] is [devices.size()]; in the branch [d :: next] the
    iterator points at [d] and [next] is [my_next device]. *)
Fixpoint run_tests_loop {World : Type} {rt : Runtime World}
    (args : ArgumentSet) (kwargs : ArgumentMap) (concise : bool)
    (size : nat) (device : list Z) (result : bool) (s : State World)
    : Outcome * State World :=
  match device with
  | [] => (Returned result, s)
  | d :: next =>
      let s := {| world := hipSetDevice d (world s); cout := cout s |} in
      let '(skip, s) :=
        if (1 <? size)%nat then
          let '(exists_, w) := binary_exists_for_current_device (world s) in
          (negb exists_, {| world := w; cout := cout s |})
        else (false, s) in
      if skip then
        run_tests_loop args kwargs concise size next result s
      else
        let s :=
          if negb concise then
            let '(stored, w) := hipGetDeviceProperties d (world s) in
            let deviceProp := out_param indeterminate_prop stored in
            put {| world := w; cout := cout s |}
                [Str "Testing Device "; Int d; Str (": " ++ dquote);
                 Str (name deviceProp); Str dquote; Endl]
          else s in
        let '(error, s) := check_cuda_error concise s in
        if error then (Returned false, s)
        else
          let '(passed, printed, w) :=
            UnitTestDriver_run_tests args kwargs (world s) in
          let s := {| world := w; cout := cout s ++ printed |} in
          let result := result && passed in
          let s :=
            if negb concise &&
               match next with [] => false | _ :: _ => true end
            then put s [Endl]
            else s in
          run_tests_loop args kwargs concise size next result s
  end.

Definition run_tests {World : Type} {rt : Runtime World}
    (args : ArgumentSet) (kwargs : ArgumentMap) (s : State World)
    : Outcome * State World :=
  let verbose := count kwargs "verbose" in
  let concise := count kwargs "concise" in
  if verbose && concise then
    (Exited EXIT_FAILURE,
     put s [Str "--verbose and --concise cannot be used together"; Endl])
  else
    let '(error, s) := check_cuda_error concise s in
    if error then (Returned false, s)
    else
      let result := true in
      let s := if count kwargs "verbose" then list_devices s else s in
      let '(devices, w) := target_devices kwargs (world s) in
      let s := {| world := w; cout := cout s |} in
      match devices with
      | None => (Threw, s)
      | Some devices =>
          run_tests_loop args kwargs concise (List.length devices) devices result s
      end.

Definition current_device_architecture {World : Type} {rt : Runtime World}
    (w : World) : Z * World :=
  let '(stored, w) := hipGetDevice w in
  let current := out_param (-1) stored in
  let '(stored, w) := hipGetDeviceProperties current w in
  let deviceProp := out_param indeterminate_prop stored in
  (int_wrap (int_wrap (100 * major deviceProp) +
             int_wrap (10 * minor deviceProp)), w).

End CUDATestDriver.

(** * Properties *)

(** ** The chain of [Callback]s *)

Ltac unfold_chain :=
  unfold Arch100.Callback, Arch120.Callback, Arch200.Callback, Arch300.Callback.

Ltac split_chain v :=
  unfold_chain;
  destruct (Z.gtb_spec v 100); [ | try reflexivity; try lia ];
  [ destruct (Z.gtb_spec v 120); [ | try reflexivity; try lia ];
    [ destruct (Z.gtb_spec v 200); try reflexivity; try lia ] ].

(** Whatever the client, the chain calls it once, with [selected]. *)
Lemma Callback_selected {T : Type} {tgt : Target T} (target : T) (v : Z) :
  Arch100.Callback target v = target_Callback (selected v) target.
Proof.
  unfold selected. split_chain v.
Qed.

(** The chain by ranges of [sm_version]: each body keeps the versions up
    to its own id and passes the larger ones on. *)
Lemma selected_cases (v : Z) :
  (v <= 100 /\ selected v = SM10) \/
  (100 < v <= 120 /\ selected v = SM12) \/
  (120 < v <= 200 /\ selected v = SM20) \/
  (200 < v /\ selected v = SM30).
Proof.
  unfold selected. unfold_chain.
  destruct (Z.gtb_spec v 100); [ | left; split; [lia | reflexivity] ].
  destruct (Z.gtb_spec v 120); [ | right; left; split; [lia | reflexivity] ].
  destruct (Z.gtb_spec v 200); right; right;
    [ right | left ]; (split; [lia | reflexivity]).
Qed.

Lemma invocations_selected (v : Z) : invocations v = [selected v].
Proof.
  unfold invocations. rewrite Callback_selected. reflexivity.
Qed.

Lemma selected_below (v : Z) : v <= 100 -> selected v = SM10.
Proof. destruct (selected_cases v) as [H|[H|[H|H]]]; intros; destruct H; (assumption || lia). Qed.

Lemma selected_above (v : Z) : 200 < v -> selected v = SM30.
Proof. destruct (selected_cases v) as [H|[H|[H|H]]]; intros; destruct H; (assumption || lia). Qed.

(** An architecture without a specialisation inherits the chain of SM10. *)
Lemma ArchDeviceProps_Callback_unknown {T : Type} {tgt : Target T}
    (SM_ARCH : Z) (target : T) (v : Z) :
  declaration SM_ARCH = Unknown ->
  ArchDeviceProps_Callback SM_ARCH target v = Arch100.Callback target v.
Proof.
  intros H. unfold ArchDeviceProps_Callback, ArchDeviceProps. rewrite H. reflexivity.
Qed.

(** ** Runtime selection *)

(** C1. Run at [sm_version = 150], strictly between the bodies 120 and
    200, the chain entered at SM10 calls the client with SM20, the body
    above, and not with SM12, the body below: SM12 passes on every version
    greater than its own id. *)
Theorem between_bases_150_selects_SM20 :
  selected 150 = SM20 /\
  invocations 150 = [SM20] /\
  invocations 150 <> [SM12] /\
  forall (T : Type) (tgt : Target T) (target : T),
    Arch100.Callback target 150 = target_Callback SM20 target.
Proof.
  repeat split; try reflexivity.
  discriminate.
Qed.

(** C2. A runtime version below the smallest body id (100) selects SM10 and
    one above the largest (300) selects SM30; the chain is a total function,
    so neither is an error. *)
Theorem out_of_range_selects_nearest_bound
    (T : Type) (tgt : Target T) (target : T) (v : Z) :
  (v < 100 -> Arch100.Callback target v = target_Callback SM10 target) /\
  (300 < v -> Arch100.Callback target v = target_Callback SM30 target).
Proof.
  rewrite Callback_selected. split; intros Hv.
  - rewrite selected_below by lia. reflexivity.
  - rewrite selected_above by lia. reflexivity.
Qed.

Lemma out_of_range_selects_nearest_bound_witness :
  (50 < 100 /\ invocations 50 = [SM10]) /\
  (300 < 305 /\ invocations 305 = [SM30]).
Proof.
  split; (split; [ lia | ]).
  - apply (proj1 (out_of_range_selects_nearest_bound _ Recorder [] 50)). lia.
  - apply (proj2 (out_of_range_selects_nearest_bound _ Recorder [] 305)). lia.
Defined.

(** C3. Run at the id of a body (100, 120, 200 or 300), the chain entered
    at SM10 calls the client with exactly that body. *)
Theorem base_id_selects_its_body (a : SmArch) :
  invocations (sm_arch a) = [a] /\
  forall (T : Type) (tgt : Target T) (target : T),
    Arch100.Callback target (sm_arch a) = target_Callback a target.
Proof.
  destruct a; split; reflexivity.
Qed.

(** C4. Run at the id of a derived specialisation, the chain does not
    select the base that specialisation derives from, except for 350: at
    110 it calls the client with SM12 although [ArchDeviceProps<110>]
    derives from SM10, at 130 with SM20 (derives from SM12), at 210 with
    SM30 (derives from SM20), at 350 with SM30 (derives from SM30). *)
Theorem derived_id_selection_at_runtime :
  (invocations 110 = [SM12] /\ ArchDeviceProps 110 = SM10) /\
  (invocations 130 = [SM20] /\ ArchDeviceProps 130 = SM12) /\
  (invocations 210 = [SM30] /\ ArchDeviceProps 210 = SM20) /\
  (invocations 350 = [SM30] /\ ArchDeviceProps 350 = SM30).
Proof.
  repeat split.
Qed.

(** C5. For every runtime version the chain entered at SM10 returns, and
    it has called the client exactly once, with one determined body: the
    log of the observing client is a singleton, and the effect on any
    client is the one of that single call. *)
Theorem dispatch_invokes_exactly_once (v : Z) :
  exists a : SmArch,
    invocations v = [a] /\
    length (invocations v) = 1%nat /\
    (forall b : SmArch, In b (invocations v) -> b = a) /\
    forall (T : Type) (tgt : Target T) (target : T),
      Arch100.Callback target v = target_Callback a target.
Proof.
  exists (selected v). rewrite invocations_selected.
  repeat split.
  - intros b [Hb | []]. symmetry. exact Hb.
  - intros. apply Callback_selected.
Qed.

(** ** Compile-time selection *)

Lemma declaration_unknown (n : Z) :
  ~ In n [100; 110; 120; 130; 200; 210; 300; 350] -> declaration n = Unknown.
Proof.
  intros Hn. unfold declaration.
  repeat match goal with
         | |- context [ ?x =? ?k ] =>
             destruct (Z.eqb_spec x k) as [-> | _];
             [ exfalso; apply Hn; simpl; tauto | ]
         end.
  reflexivity.
Qed.

(** C6. [PtxDeviceProps] exposes the members of SM10 when [CUB_PTX_ARCH] is
    0 (host pass) or is none of the eight declared architecture ids; when it
    is the id of a body it exposes that body, and when it is the id of a
    derived specialisation it exposes the body derived from. *)
Theorem PtxDeviceProps_selection (cuda_arch : option Z) :
  (CUB_PTX_ARCH cuda_arch = 0 \/
   ~ In (CUB_PTX_ARCH cuda_arch) [100; 110; 120; 130; 200; 210; 300; 350] ->
   PtxDeviceProps cuda_arch = SM10) /\
  (CUB_PTX_ARCH cuda_arch = 100 \/ CUB_PTX_ARCH cuda_arch = 110 ->
   PtxDeviceProps cuda_arch = SM10) /\
  (CUB_PTX_ARCH cuda_arch = 120 \/ CUB_PTX_ARCH cuda_arch = 130 ->
   PtxDeviceProps cuda_arch = SM12) /\
  (CUB_PTX_ARCH cuda_arch = 200 \/ CUB_PTX_ARCH cuda_arch = 210 ->
   PtxDeviceProps cuda_arch = SM20) /\
  (CUB_PTX_ARCH cuda_arch = 300 \/ CUB_PTX_ARCH cuda_arch = 350 ->
   PtxDeviceProps cuda_arch = SM30).
Proof.
  unfold PtxDeviceProps.
  repeat split; intros [H | H]; try (rewrite H; reflexivity).
  unfold ArchDeviceProps. rewrite (declaration_unknown _ H). reflexivity.
Qed.

Lemma PtxDeviceProps_selection_witness :
  PtxDeviceProps None = SM10 /\
  PtxDeviceProps (Some 520) = SM10 /\
  PtxDeviceProps (Some 120) = SM12 /\
  PtxDeviceProps (Some 350) = SM30.
Proof.
  split; [ | split; [ | split ] ].
  - apply (proj1 (PtxDeviceProps_selection None)).
    left. reflexivity.
  - apply (proj1 (PtxDeviceProps_selection (Some 520))).
    right. simpl. intros H. repeat (destruct H as [H | H]; [ discriminate H | ]).
    exact H.
  - apply (proj1 (proj2 (proj2 (PtxDeviceProps_selection (Some 120))))).
    left. reflexivity.
  - apply (proj2 (proj2 (proj2 (proj2 (PtxDeviceProps_selection (Some 350)))))).
    right. reflexivity.
Defined.

(** ** The table *)

(** C7. Each derived specialisation (350 from 300, 210 from 200, 130 from
    120, 110 from 100) is declared as deriving from the body of its base,
    and its enum agrees with the base's in every enumerator. *)
Theorem derived_specialisations_share_enum :
  Forall (fun e : Z * Z =>
            declaration (fst e) = Derives (ArchDeviceProps (snd e)) /\
            declaration (snd e) = Body (ArchDeviceProps (snd e)) /\
            ArchDeviceProps_enum (fst e) = ArchDeviceProps_enum (snd e) /\
            same_fields (ArchDeviceProps_enum (fst e)) (ArchDeviceProps_enum (snd e)))
         derived_specialisations.
Proof.
  unfold derived_specialisations, same_fields.
  repeat constructor.
Qed.

(** C9. Between two bodies with ids A < B, no capacity enumerator
    decreases: shared memory bytes, bank count, warp threads, threads per
    SM, thread blocks per SM, threads per block, registers per SM. *)
Theorem capacity_monotone (a b : SmArch) :
  sm_arch a < sm_arch b -> capacity_le (enum_of a) (enum_of b).
Proof.
  unfold capacity_le.
  destruct a, b; simpl; intros H; try lia; repeat split; lia.
Qed.

Lemma capacity_monotone_witness :
  sm_arch SM10 < sm_arch SM30 /\ capacity_le (enum_of SM10) (enum_of SM30).
Proof.
  assert (H : sm_arch SM10 < sm_arch SM30) by (simpl; lia).
  split; [ exact H | exact (capacity_monotone SM10 SM30 H) ].
Defined.

(** ** What the client is given *)

(** C8, as claimed, fails: were the runtime version handed to the client
    together with the selected body, some client could store it and be read
    back; but no client tells [sm_version = 50] from [sm_version = 60]. *)
Lemma runtime_id_not_handed_to_client :
  ~ (exists (T : Type) (tgt : Target T) (target : T) (read : T -> Z),
       read (Arch100.Callback target 50) = 50 /\
       read (Arch100.Callback target 60) = 60).
Proof.
  intros (T & tgt & target & read & H50 & H60).
  change (Arch100.Callback target 60) with (Arch100.Callback target 50) in H60.
  rewrite H50 in H60. discriminate H60.
Qed.

(** C8, amended. Every run of the chain calls the client with the selected
    body as its only argument (the template argument, through which the
    client reads the enum); the runtime version is not passed on, so two
    runs whose versions select the same body act on the client alike. *)
Theorem client_receives_selected_body_only
    (T : Type) (tgt : Target T) (target : T) (v w : Z) :
  selected v = selected w ->
  Arch100.Callback target v = target_Callback (selected v) target /\
  Arch100.Callback target v = Arch100.Callback target w.
Proof.
  intros Hvw. rewrite !Callback_selected, Hvw. split; reflexivity.
Qed.

Lemma client_receives_selected_body_only_witness :
  selected 50 = selected 60 /\
  invocations 50 = [selected 50] /\
  invocations 50 = invocations 60.
Proof.
  assert (H : selected 50 = selected 60) by reflexivity.
  split; [ exact H | ].
  exact (client_receives_selected_body_only _ Recorder [] 50 60 H).
Defined.

(** ** The feature macro *)

(** C10. [CNP_ENABLED] holds exactly when [CUB_PTX_ARCH] is 0 (host pass) or
    at least 350; it is false in every device pass with a nonzero
    architecture id below 350. *)
Theorem CNP_ENABLED_iff (cuda_arch : option Z) :
  (CNP_ENABLED cuda_arch = true <->
   CUB_PTX_ARCH cuda_arch = 0 \/ 350 <= CUB_PTX_ARCH cuda_arch) /\
  (CUB_PTX_ARCH cuda_arch <> 0 -> CUB_PTX_ARCH cuda_arch < 350 ->
   CNP_ENABLED cuda_arch = false).
Proof.
  unfold CNP_ENABLED. split.
  - rewrite orb_true_iff, Z.eqb_eq, Z.geb_le. reflexivity.
  - intros H0 H350. apply orb_false_iff. split.
    + apply Z.eqb_neq. exact H0.
    + rewrite Z.geb_leb. apply Z.leb_gt. exact H350.
Qed.

Lemma CNP_ENABLED_iff_witness :
  CNP_ENABLED None = true /\
  CNP_ENABLED (Some 350) = true /\
  CNP_ENABLED (Some 300) = false.
Proof.
  split; [ | split ].
  - apply (proj1 (CNP_ENABLED_iff None)). left. reflexivity.
  - apply (proj1 (CNP_ENABLED_iff (Some 350))). right. simpl. lia.
  - apply (proj2 (CNP_ENABLED_iff (Some 300))); simpl; lia.
Defined.

(** * Further properties of the table and of the chain *)

(** ** The chain as a function of [sm_version] *)

(** X1. Up to 300 the chain entered at SM10 selects the body with the least
    id that is not below [sm_version]. *)
Theorem selected_least_body_not_below (v : Z) :
  v <= 300 ->
  v <= sm_arch (selected v) /\
  forall b : SmArch, v <= sm_arch b -> sm_arch (selected v) <= sm_arch b.
Proof.
  intros Hv.
  destruct (selected_cases v) as [[H E] | [[H E] | [[H E] | [H E]]]];
    rewrite E; simpl; (split; [ lia | intros b; destruct b; simpl; lia ]).
Qed.

Lemma selected_least_body_not_below_witness :
  150 <= 300 /\
  150 <= sm_arch (selected 150) /\
  forall b : SmArch, 150 <= sm_arch b -> sm_arch (selected 150) <= sm_arch b.
Proof.
  assert (H : 150 <= 300) by lia.
  split; [ exact H | exact (selected_least_body_not_below 150 H) ].
Defined.

Lemma selected_monotone_id (v w : Z) :
  v <= w -> sm_arch (selected v) <= sm_arch (selected w).
Proof.
  intros Hvw.
  destruct (selected_cases v) as [[Hv Ev] | [[Hv Ev] | [[Hv Ev] | [Hv Ev]]]];
  destruct (selected_cases w) as [[Hw Ew] | [[Hw Ew] | [[Hw Ew] | [Hw Ew]]]];
    rewrite Ev, Ew; simpl; lia.
Qed.

(** X2. The selection is monotone: a larger [sm_version] never selects a
    body with a smaller id. *)
Theorem selected_monotone (v w : Z) :
  v <= w -> sm_arch (selected v) <= sm_arch (selected w).
Proof.
  exact (selected_monotone_id v w).
Qed.

Lemma selected_monotone_witness :
  110 <= 210 /\ sm_arch (selected 110) <= sm_arch (selected 210).
Proof.
  assert (H : 110 <= 210) by lia.
  split; [ exact H | exact (selected_monotone 110 210 H) ].
Defined.

Lemma capacity_le_of_id_le (a b : SmArch) :
  sm_arch a <= sm_arch b -> capacity_le (enum_of a) (enum_of b).
Proof.
  unfold capacity_le.
  destruct a, b; simpl; intros H; try lia; repeat split; lia.
Qed.

(** X3. A larger [sm_version] never gets an enum with a smaller capacity:
    along the chain no capacity enumerator of the selected body decreases. *)
Theorem selected_capacity_monotone (v w : Z) :
  v <= w -> capacity_le (enum_of (selected v)) (enum_of (selected w)).
Proof.
  intros Hvw. apply capacity_le_of_id_le, selected_monotone_id, Hvw.
Qed.

Lemma selected_capacity_monotone_witness :
  50 <= 500 /\ capacity_le (enum_of (selected 50)) (enum_of (selected 500)).
Proof.
  assert (H : 50 <= 500) by lia.
  split; [ exact H | exact (selected_capacity_monotone 50 500 H) ].
Defined.

(** X4. Selecting again at the id of the selected body changes nothing. *)
Theorem selected_idempotent (v : Z) :
  selected (sm_arch (selected v)) = selected v.
Proof.
  destruct (selected_cases v) as [[H E] | [[H E] | [[H E] | [H E]]]];
    rewrite E; reflexivity.
Qed.

(** X5. Entered at [ArchDeviceProps<SM_ARCH>::Callback], own or inherited,
    the chain calls the client once, with the later of the entry body and
    the body the chain entered at SM10 selects; so never with a body older
    than the entry. *)
Theorem ArchDeviceProps_Callback_later
    (T : Type) (tgt : Target T) (SM_ARCH : Z) (target : T) (v : Z) :
  ArchDeviceProps_Callback SM_ARCH target v =
    target_Callback (later (ArchDeviceProps SM_ARCH) (selected v)) target /\
  sm_arch (ArchDeviceProps SM_ARCH) <=
    sm_arch (later (ArchDeviceProps SM_ARCH) (selected v)).
Proof.
  unfold ArchDeviceProps_Callback.
  destruct (selected_cases v) as [[H E] | [[H E] | [[H E] | [H E]]]];
    rewrite E; destruct (ArchDeviceProps SM_ARCH);
    (split; [ | unfold later; simpl; lia ]);
    change (later _ _) with SM10 || change (later _ _) with SM12 ||
    change (later _ _) with SM20 || change (later _ _) with SM30;
    unfold_chain;
    repeat match goal with
           | |- context [ ?x >? ?k ] => destruct (Z.gtb_spec x k)
           end;
    reflexivity || lia.
Qed.

(** ** Compile-time table against runtime chain *)

(** X6. The compile-time instantiation [ArchDeviceProps<v>] and the runtime
    chain run at [sm_version = v] expose the same body exactly for [v] up to
    100 and for [v] one of 120, 200, 300, 350. *)
Theorem static_and_runtime_agree_iff (v : Z) :
  ArchDeviceProps v = selected v <->
  v <= 100 \/ v = 120 \/ v = 200 \/ v = 300 \/ v = 350.
Proof.
  unfold ArchDeviceProps, declaration.
  repeat match goal with
         | |- context [ ?x =? ?k ] =>
             destruct (Z.eqb_spec x k) as [-> | ?];
             [ split; [ intros HH; first [ discriminate HH | lia ]
                      | intros HH; first [ reflexivity | exfalso; lia ] ] | ]
         end.
  destruct (selected_cases v) as [[H E] | [[H E] | [[H E] | [H E]]]];
    rewrite E;
    (split; [ intros HH; first [ discriminate HH | lia ]
            | intros HH; first [ reflexivity | exfalso; lia ] ]).
Qed.


(** X8. In a device pass where [CNP_ENABLED] holds, [PtxDeviceProps] exposes
    SM30 only for [__CUDA_ARCH__ = 350]; for every larger architecture id
    it exposes the enum of SM10. *)
Theorem CNP_ENABLED_device_props (a : Z) :
  a <> 0 ->
  CNP_ENABLED (Some a) = true ->
  (a = 350 /\ PtxDeviceProps (Some a) = SM30) \/
  (350 < a /\ PtxDeviceProps (Some a) = SM10).
Proof.
  unfold CNP_ENABLED. simpl CUB_PTX_ARCH. intros Ha H.
  apply orb_true_iff in H. destruct H as [H | H].
  - apply Z.eqb_eq in H. contradiction.
  - apply Z.geb_le in H.
    destruct (Z.eq_dec a 350) as [-> | Hne].
    + left. split; reflexivity.
    + right. split; [ lia | ].
      unfold PtxDeviceProps, ArchDeviceProps. simpl CUB_PTX_ARCH.
      rewrite declaration_unknown; [ reflexivity | ].
      simpl. intros HH. repeat (destruct HH as [HH | HH]; [ lia | ]). exact HH.
Qed.

Lemma CNP_ENABLED_device_props_witness :
  520 <> 0 /\ CNP_ENABLED (Some 520) = true /\
  ((520 = 350 /\ PtxDeviceProps (Some 520) = SM30) \/
   (350 < 520 /\ PtxDeviceProps (Some 520) = SM10)).
Proof.
  assert (H0 : 520 <> 0) by lia.
  assert (H1 : CNP_ENABLED (Some 520) = true) by reflexivity.
  split; [ exact H0 | split; [ exact H1 | exact (CNP_ENABLED_device_props 520 H0 H1) ] ].
Defined.

(** ** Invariants of the enums *)

(** X9. For every [SM_ARCH] the thread and bank counts are the powers of
    two of their logarithms, a warp has 32 threads, a bank word 4 bytes,
    and there are 16 banks below SM20 and 32 from SM20 on. *)
Theorem enum_powers_of_two (SM_ARCH : Z) :
  WARP_THREADS (ArchDeviceProps_enum SM_ARCH) =
    2 ^ LOG_WARP_THREADS (ArchDeviceProps_enum SM_ARCH) /\
  SMEM_BANKS (ArchDeviceProps_enum SM_ARCH) =
    2 ^ LOG_SMEM_BANKS (ArchDeviceProps_enum SM_ARCH) /\
  WARP_THREADS (ArchDeviceProps_enum SM_ARCH) = 32 /\
  SMEM_BANK_BYTES (ArchDeviceProps_enum SM_ARCH) = 4 /\
  SMEM_BANKS (ArchDeviceProps_enum SM_ARCH) =
    (if sm_arch (ArchDeviceProps SM_ARCH) <? 200 then 16 else 32).
Proof.
  unfold ArchDeviceProps_enum.
  destruct (ArchDeviceProps SM_ARCH); repeat split.
Qed.

(** X10. For every [SM_ARCH] the ceilings fit together: a full thread block
    fits an SM, thread ceilings are whole numbers of warps, shared memory is
    a whole number of allocation units and of bank rows, the register file a
    whole number of register allocation units, and registers are allocated
    by block exactly below SM20. *)
Theorem enum_ceilings_consistent (SM_ARCH : Z) :
  MAX_BLOCK_THREADS (ArchDeviceProps_enum SM_ARCH) <=
    MAX_SM_THREADS (ArchDeviceProps_enum SM_ARCH) /\
  MAX_SM_THREADS (ArchDeviceProps_enum SM_ARCH)
    mod WARP_THREADS (ArchDeviceProps_enum SM_ARCH) = 0 /\
  MAX_BLOCK_THREADS (ArchDeviceProps_enum SM_ARCH)
    mod WARP_THREADS (ArchDeviceProps_enum SM_ARCH) = 0 /\
  SMEM_BYTES (ArchDeviceProps_enum SM_ARCH)
    mod SMEM_ALLOC_UNIT (ArchDeviceProps_enum SM_ARCH) = 0 /\
  SMEM_BYTES (ArchDeviceProps_enum SM_ARCH)
    mod (SMEM_BANKS (ArchDeviceProps_enum SM_ARCH) *
         SMEM_BANK_BYTES (ArchDeviceProps_enum SM_ARCH)) = 0 /\
  MAX_SM_REGISTERS (ArchDeviceProps_enum SM_ARCH)
    mod REG_ALLOC_UNIT (ArchDeviceProps_enum SM_ARCH) = 0 /\
  REGS_BY_BLOCK (ArchDeviceProps_enum SM_ARCH) =
    (sm_arch (ArchDeviceProps SM_ARCH) <? 200).
Proof.
  unfold ArchDeviceProps_enum.
  destruct (ArchDeviceProps SM_ARCH); repeat split; simpl; lia.
Qed.

(** * Properties of the CUDA test driver *)
Module CUDATestDriverFacts.
Import Ascii String.
Import CUDATestDriver.

(** A runtime over a one-point world whose queries answer with constants;
    it serves to run the driver on concrete inputs. *)
Definition constant_runtime (error : Z) (device_count : option Z)
    (attributes : Z) (device_id : Z) (passed : bool) : Runtime unit :=
  {| hipSuccess := 0;
     hipErrorMemoryAllocation := 2;
     EXIT_FAILURE := 1;
     hipGetLastError := fun w => (error, w);
     hipGetErrorString := fun _ => "error"%string;
     hipGetDeviceCount := fun w => (device_count, w);
     hipGetDevice := fun w => (Some 0, w);
     hipSetDevice := fun _ w => w;
     hipGetDeviceProperties := fun _ w =>
       (Some {| major := 3; minor := 5; name := "gpu"; totalGlobalMem := 1024 |}, w);
     hipFuncGetAttributes := fun w => (attributes, w);
     atoi := fun _ => device_id;
     UnitTestDriver_run_tests := fun _ _ w => (passed, [], w);
     indeterminate_int := 0;
     indeterminate_prop :=
       {| major := 0; minor := 0; name := ""; totalGlobalMem := 0 |} |}.

Definition no_kwargs : ArgumentMap := fun _ => None.

Definition start : State unit := {| world := tt; cout := [] |}.

(** The runtime [rt] with another answer to [hipFuncGetAttributes]. *)
Definition with_hipFuncGetAttributes {World : Type}
    (answer : World -> Z * World) (rt : Runtime World) : Runtime World :=
  {| hipSuccess := @hipSuccess World rt;
     hipErrorMemoryAllocation := @hipErrorMemoryAllocation World rt;
     EXIT_FAILURE := @EXIT_FAILURE World rt;
     hipGetLastError := @hipGetLastError World rt;
     hipGetErrorString := @hipGetErrorString World rt;
     hipGetDeviceCount := @hipGetDeviceCount World rt;
     hipGetDevice := @hipGetDevice World rt;
     hipSetDevice := @hipSetDevice World rt;
     hipGetDeviceProperties := @hipGetDeviceProperties World rt;
     hipFuncGetAttributes := answer;
     atoi := @atoi World rt;
     UnitTestDriver_run_tests := @UnitTestDriver_run_tests World rt;
     indeterminate_int := @indeterminate_int World rt;
     indeterminate_prop := @indeterminate_prop World rt |}.

(** Keyword arguments holding one key. *)
Definition one_kwarg (key value : string) : ArgumentMap :=
  fun k => if String.eqb k key then Some value else None.

(** ** [target_devices] *)

Lemma assign_app (prefix rest : list Z) (y x : Z) :
  assign (prefix ++ y :: rest) (List.length prefix) x = prefix ++ x :: rest.
Proof.
  induction prefix as [| z prefix IH]; simpl.
  - reflexivity.
  - rewrite IH. reflexivity.
Qed.

(** The invariant of the loop: before the iteration at [i = k] the first
    [k] elements are [0 .. k-1] and the others are still those of
    [resize]. *)
Lemma iota_loop_invariant (m k : nat) :
  iota_loop m (Z.of_nat k) (Z.of_nat (k + m))
    (map Z.of_nat (seq 0 k) ++ repeat 0 m)
  = map Z.of_nat (seq 0 (k + m)).
Proof.
  revert k. induction m as [| m IH]; intros k.
  - simpl. rewrite Nat.add_0_r, app_nil_r. reflexivity.
  - cbn [iota_loop repeat].
    destruct (Z.ltb_spec (Z.of_nat k) (Z.of_nat (k + S m))) as [_ | H]; [ | lia ].
    rewrite Nat2Z.id.
    pose proof (assign_app (map Z.of_nat (seq 0 k)) (repeat 0 m) 0 (Z.of_nat k)) as A.
    rewrite length_map, length_seq in A. rewrite A.
    replace (Z.of_nat k + 1) with (Z.of_nat (S k)) by lia.
    replace (k + S m)%nat with (S k + m)%nat by lia.
    rewrite <- IH. f_equal.
    rewrite seq_S, map_app, <- app_assoc. reflexivity.
Qed.

Lemma iota_loop_all (count : Z) :
  0 <= count ->
  iota_loop (Z.to_nat count) 0 count (repeat 0 (Z.to_nat count))
  = map Z.of_nat (seq 0 (Z.to_nat count)).
Proof.
  intros H.
  pose proof (iota_loop_invariant (Z.to_nat count) 0) as I.
  simpl in I. rewrite Z2Nat.id in I by exact H. exact I.
Qed.

(** More fuel than [count - i] iterations changes nothing: the loop has
    stopped on its own condition. *)
Lemma iota_loop_fuel (extra fuel : nat) (i count : Z) (result : list Z) :
  count - i <= Z.of_nat fuel ->
  iota_loop (fuel + extra) i count result = iota_loop fuel i count result.
Proof.
  revert i result. induction fuel as [| fuel IH]; intros i result H.
  - destruct extra as [| extra]; simpl; [ reflexivity | ].
    destruct (Z.ltb_spec i count); [ lia | reflexivity ].
  - simpl. destruct (Z.ltb_spec i count); [ | reflexivity ].
    apply IH. lia.
Qed.

Lemma target_devices_iota {World : Type} {rt : Runtime World}
    (kwargs : ArgumentMap) (w w' : World) (stored : option Z) :
  match kwargs "device"%string with
  | Some value => atoi value < 0
  | None => True
  end ->
  hipGetDeviceCount w = (stored, w') ->
  0 <= out_param 0 stored ->
  target_devices kwargs w =
    (Some (map Z.of_nat (seq 0 (Z.to_nat (out_param 0 stored)))), w').
Proof.
  intros Hdev Hcount Hpos. unfold target_devices.
  assert (Hneg : (match kwargs "device"%string with
                  | Some value => atoi value
                  | None => -1
                  end <? 0) = true).
  { apply Z.ltb_lt. destruct (kwargs "device"%string); [ exact Hdev | lia ]. }
  rewrite Hneg, Hcount.
  destruct (Z.ltb_spec (out_param 0 stored) 0) as [H | _]; [ lia | ].
  rewrite iota_loop_all by exact Hpos. reflexivity.
Qed.



Lemma target_devices_one {World : Type} {rt : Runtime World}
    (kwargs : ArgumentMap) (w : World) (value : String.string) :
  kwargs "device"%string = Some value ->
  0 <= atoi value ->
  target_devices kwargs w = (Some [atoi value], w).
Proof.
  intros Hk Hv. unfold target_devices. rewrite Hk.
  destruct (Z.ltb_spec (atoi value) 0); [ lia | reflexivity ].
Qed.

(** ** [current_device_architecture] *)

Lemma int_wrap_small (z : Z) :
  - 2147483648 <= z < 2147483648 -> int_wrap z = z.
Proof.
  intros H. unfold int_wrap.
  change (2 ^ 31) with 2147483648. change (2 ^ 32) with 4294967296.
  rewrite Z.mod_small; lia.
Qed.

(** X12. For a device of compute capability [major.minor] with a one-digit
    [minor] (and [major] up to 9999) the architecture is
    [100 * major + 10 * minor], from which both numbers are read back: the
    hundreds give [major], the tens [minor].  The device asked about is the
    one [hipGetDevice] stored, or -1 when it stored nothing. *)
Theorem current_device_architecture_digits (World : Type) (rt : Runtime World)
    (w w1 w2 : World) (current : option Z) (deviceProp : hipDeviceProp_t) :
  hipGetDevice w = (current, w1) ->
  hipGetDeviceProperties (out_param (-1) current) w1 = (Some deviceProp, w2) ->
  0 <= major deviceProp <= 9999 ->
  0 <= minor deviceProp <= 9 ->
  current_device_architecture w =
    (100 * major deviceProp + 10 * minor deviceProp, w2) /\
  fst (current_device_architecture w) / 100 = major deviceProp /\
  (fst (current_device_architecture w) mod 100) / 10 = minor deviceProp.
Proof.
  intros Hdev Hprop Hmajor Hminor.
  assert (E : current_device_architecture w =
              (100 * major deviceProp + 10 * minor deviceProp, w2)).
  { unfold current_device_architecture. rewrite Hdev, Hprop. simpl out_param.
    rewrite !int_wrap_small by (try rewrite !int_wrap_small; lia).
    reflexivity. }
  rewrite E. cbn [fst]. split; [ reflexivity | split ].
  - symmetry. apply Z.div_unique with (r := 10 * minor deviceProp); lia.
  - assert (M : (100 * major deviceProp + 10 * minor deviceProp) mod 100
                = 10 * minor deviceProp).
    { symmetry. apply Z.mod_unique with (q := major deviceProp); lia. }
    rewrite M. symmetry. apply Z.div_unique with (r := 0); lia.
Qed.

Lemma current_device_architecture_digits_witness :
  current_device_architecture (rt := constant_runtime 0 (Some 1) 0 0 true) tt
    = (350, tt) /\
  fst (current_device_architecture
         (rt := constant_runtime 0 (Some 1) 0 0 true) tt) / 100 = 3 /\
  (fst (current_device_architecture
          (rt := constant_runtime 0 (Some 1) 0 0 true) tt) mod 100) / 10 = 5.
Proof.
  apply (current_device_architecture_digits unit
           (constant_runtime 0 (Some 1) 0 0 true) tt tt tt (Some 0)
           {| major := 3; minor := 5; name := "gpu"; totalGlobalMem := 1024 |}).
  - reflexivity.
  - reflexivity.
  - simpl. lia.
  - simpl. lia.
Defined.

(** ** [check_cuda_error] and [post_test_sanity_check] *)

Lemma check_cuda_error_fst {World : Type} {rt : Runtime World}
    (concise : bool) (s : State World) :
  fst (check_cuda_error concise s) = negb (fst (hipGetLastError (world s)) =? 0).
Proof.
  unfold check_cuda_error. destruct (hipGetLastError (world s)) as [error w].
  reflexivity.
Qed.

Lemma check_cuda_error_world {World : Type} {rt : Runtime World}
    (concise : bool) (s : State World) :
  world (snd (check_cuda_error concise s)) = snd (hipGetLastError (world s)).
Proof.
  unfold check_cuda_error. destruct (hipGetLastError (world s)) as [error w].
  simpl. destruct (error =? 0), concise; reflexivity.
Qed.

Lemma check_cuda_error_silent {World : Type} {rt : Runtime World}
    (concise : bool) (s : State World) :
  concise = true \/ fst (hipGetLastError (world s)) = 0 ->
  cout (snd (check_cuda_error concise s)) = cout s.
Proof.
  unfold check_cuda_error. destruct (hipGetLastError (world s)) as [error w].
  simpl. intros [-> | ->].
  - destruct (error =? 0); reflexivity.
  - reflexivity.
Qed.

(** X13. With [hipSuccess = 0], [post_test_sanity_check] answers the
    opposite of [check_cuda_error] on the same state and leaves the same
    world; but for [hipErrorMemoryAllocation] it prints nothing, also when
    not concise, although it answers false. *)
Theorem post_test_sanity_check_against_check_cuda_error
    (World : Type) (rt : Runtime World)
    (test_name : string) (concise : bool) (s : State World) :
  hipSuccess = 0 ->
  fst (post_test_sanity_check test_name concise s) =
    negb (fst (check_cuda_error concise s)) /\
  world (snd (post_test_sanity_check test_name concise s)) =
    world (snd (check_cuda_error concise s)) /\
  (fst (hipGetLastError (world s)) = hipErrorMemoryAllocation ->
   cout (snd (post_test_sanity_check test_name concise s)) = cout s) /\
  (fst (hipGetLastError (world s)) = hipErrorMemoryAllocation ->
   hipErrorMemoryAllocation <> 0 ->
   fst (post_test_sanity_check test_name concise s) = false).
Proof.
  intros Hs. unfold post_test_sanity_check, check_cuda_error.
  destruct (hipGetLastError (world s)) as [error w]. simpl. rewrite Hs.
  split; [ | split; [ | split ] ].
  - rewrite negb_involutive. reflexivity.
  - destruct (error =? 0), (error =? hipErrorMemoryAllocation), concise; reflexivity.
  - intros ->. rewrite Z.eqb_refl.
    destruct (hipErrorMemoryAllocation =? 0); reflexivity.
  - intros -> Hne. apply Z.eqb_neq. exact Hne.
Qed.

Lemma post_test_sanity_check_against_check_cuda_error_witness :
  post_test_sanity_check (rt := constant_runtime 2 (Some 1) 0 0 true)
    "test" false start = (false, start) /\
  fst (check_cuda_error (rt := constant_runtime 2 (Some 1) 0 0 true)
         false start) = true.
Proof.
  pose proof (post_test_sanity_check_against_check_cuda_error unit
                (constant_runtime 2 (Some 1) 0 0 true) "test" false start
                eq_refl) as [H1 [H2 [H3 H4]]].
  split.
  - destruct (post_test_sanity_check (rt := constant_runtime 2 (Some 1) 0 0 true)
                "test" false start) as [b [u c]] eqn:E.
    simpl in H3, H4. rewrite (H3 eq_refl).
    rewrite H4; [ | reflexivity | discriminate ].
    destruct u. reflexivity.
  - reflexivity.
Defined.

(** ** [list_devices] *)

(** Fuel beyond [deviceCount - dev] iterations changes nothing. *)
Lemma list_devices_loop_fuel {World : Type} {rt : Runtime World}
    (extra fuel : nat) (dev deviceCount selected_device : Z) (s : State World) :
  deviceCount - dev <= Z.of_nat fuel ->
  list_devices_loop (fuel + extra) dev deviceCount selected_device s =
  list_devices_loop fuel dev deviceCount selected_device s.
Proof.
  revert dev s. induction fuel as [| fuel IH]; intros dev s H.
  - destruct extra as [| extra]; simpl; [ reflexivity | ].
    destruct (Z.ltb_spec dev deviceCount); [ lia | reflexivity ].
  - simpl. destruct (Z.ltb_spec dev deviceCount); [ | reflexivity ].
    apply IH. lia.
Qed.

(** ** [run_tests] *)

Section Loop.

Context {World : Type} {rt : Runtime World}.
Variables (args : ArgumentSet) (kwargs : ArgumentMap).

(** Once [result] is false it stays false. *)
Lemma run_tests_loop_false (concise : bool) (size : nat) (device : list Z)
    (s : State World) :
  fst (run_tests_loop args kwargs concise size device false s) = Returned false.
Proof.
  revert s. induction device as [| d next IH]; intros s; [ reflexivity | ].
  cbn [run_tests_loop andb].
  repeat match goal with
         | |- context [ let (_, _) := ?x in _ ] => destruct x
         | |- context [ if ?b then _ else _ ] => destruct b
         end;
    first [ apply IH | reflexivity ].
Qed.

(** The loop neither exits nor throws. *)
Lemma run_tests_loop_returns (concise : bool) (size : nat) (device : list Z)
    (result : bool) (s : State World) :
  exists b : bool,
    fst (run_tests_loop args kwargs concise size device result s) = Returned b.
Proof.
  revert result s. induction device as [| d next IH]; intros result s;
    [ exists result; reflexivity | ].
  cbn [run_tests_loop].
  repeat match goal with
         | |- context [ let (_, _) := ?x in _ ] => destruct x
         | |- context [ if ?b then _ else _ ] => destruct b
         end;
    first [ apply IH | exists false; reflexivity ].
Qed.

(** In concise mode the loop prints nothing of its own. *)
Lemma run_tests_loop_concise_silent (size : nat) (device : list Z)
    (result : bool) (s : State World) :
  (forall a k w, snd (fst (UnitTestDriver_run_tests a k w)) = []) ->
  cout (snd (run_tests_loop args kwargs true size device result s)) = cout s.
Proof.
  intros Hsilent. revert result s.
  induction device as [| d next IH]; intros result s; [ reflexivity | ].
  assert (Tail : forall s0 : State World,
    cout s0 = cout s ->
    cout (snd (let '(error, s1) := check_cuda_error true s0 in
               if error then (Returned false, s1)
               else
                 let '(passed, printed, w) :=
                   UnitTestDriver_run_tests args kwargs (world s1) in
                 run_tests_loop args kwargs true size next (result && passed)
                   {| world := w; cout := cout s1 ++ printed |})) = cout s).
  { intros s0 H0.
    pose proof (check_cuda_error_silent true s0 (or_introl eq_refl)) as Hc.
    destruct (check_cuda_error true s0) as [error s1]. simpl in Hc.
    destruct error; [ simpl; congruence | ].
    pose proof (Hsilent args kwargs (world s1)) as Hp.
    destruct (UnitTestDriver_run_tests args kwargs (world s1)) as [[passed printed] w].
    simpl in Hp. subst printed. rewrite IH. simpl. rewrite app_nil_r. congruence. }
  cbn [run_tests_loop negb andb].
  destruct (1 <? size)%nat.
  - destruct (binary_exists_for_current_device _) as [b w]. destruct b; cbn [negb].
    + apply Tail. reflexivity.
    + rewrite IH. reflexivity.
  - apply Tail. reflexivity.
Qed.


End Loop.

(** X14. In the loop over the devices a failure is final: started with
    [result] false the loop returns false, whatever the remaining devices
    and their tests do. *)
Theorem run_tests_loop_failure_is_final (World : Type) (rt : Runtime World)
    (args : ArgumentSet) (kwargs : ArgumentMap) (concise : bool)
    (size : nat) (device : list Z) (s : State World) :
  fst (run_tests_loop args kwargs concise size device false s) = Returned false.
Proof.
  apply run_tests_loop_false.
Qed.

Lemma run_tests_no_exit {World : Type} {rt : Runtime World}
    (args : ArgumentSet) (kwargs : ArgumentMap) (s : State World) :
  count kwargs "verbose" && count kwargs "concise" = false ->
  forall status : Z, fst (run_tests args kwargs s) <> Exited status.
Proof.
  intros H status. unfold run_tests. cbv zeta. rewrite H.
  destruct (check_cuda_error _ s) as [error s0].
  destruct error; [ discriminate | ].
  destruct (target_devices kwargs _) as [devices w].
  destruct devices as [devices0 | ]; [ | discriminate ].
  match goal with
  | |- fst (run_tests_loop ?a ?k ?c ?n ?d ?r ?st) <> _ =>
      destruct (run_tests_loop_returns a k c n d r st) as [b Hb];
      rewrite Hb; discriminate
  end.
Qed.

(** X15. [run_tests] exits the process exactly when both [verbose] and
    [concise] are among the keyword arguments; then the status is
    [EXIT_FAILURE] and no HIP call was made. *)
Theorem run_tests_exits_iff (World : Type) (rt : Runtime World)
    (args : ArgumentSet) (kwargs : ArgumentMap) (s : State World) :
  ((exists status : Z, fst (run_tests args kwargs s) = Exited status) <->
   count kwargs "verbose" = true /\ count kwargs "concise" = true) /\
  ((exists status : Z, fst (run_tests args kwargs s) = Exited status) ->
   fst (run_tests args kwargs s) = Exited EXIT_FAILURE /\
   world (snd (run_tests args kwargs s)) = world s).
Proof.
  destruct (count kwargs "verbose" && count kwargs "concise") eqn:B.
  - apply andb_true_iff in B as B'.
    assert (E : run_tests args kwargs s =
                (Exited EXIT_FAILURE,
                 put s [Str "--verbose and --concise cannot be used together"; Endl])).
    { unfold run_tests. cbv zeta. rewrite B. reflexivity. }
    rewrite E. split; [ split | ].
    + intros _. exact B'.
    + intros _. eexists. reflexivity.
    + intros _. split; reflexivity.
  - pose proof (run_tests_no_exit args kwargs s B) as No.
    split; [ split | ].
    + intros [status H]. exfalso. exact (No status H).
    + intros [H1 H2]. rewrite H1, H2 in B. discriminate B.
    + intros [status H]. exfalso. exact (No status H).
Qed.

Definition both_kwargs : ArgumentMap :=
  fun k => if String.eqb k "verbose" then Some ""%string
           else if String.eqb k "concise" then Some ""%string
           else None.

Lemma run_tests_exits_iff_witness :
  fst (run_tests (rt := constant_runtime 0 (Some 1) 0 0 true) [] both_kwargs start)
  = Exited 1.
Proof.
  apply (proj2 (run_tests_exits_iff unit (constant_runtime 0 (Some 1) 0 0 true)
                  [] both_kwargs start)).
  apply (proj1 (run_tests_exits_iff unit (constant_runtime 0 (Some 1) 0 0 true)
                  [] both_kwargs start)).
  split; reflexivity.
Defined.

(** X16. With [concise] and without [verbose], [run_tests] prints nothing of
    its own, error messages included: if the base driver prints nothing,
    [std::cout] is left as it was. *)
Theorem run_tests_concise_silent (World : Type) (rt : Runtime World)
    (args : ArgumentSet) (kwargs : ArgumentMap) (s : State World) :
  count kwargs "concise" = true ->
  count kwargs "verbose" = false ->
  (forall a k w, snd (fst (UnitTestDriver_run_tests a k w)) = []) ->
  cout (snd (run_tests args kwargs s)) = cout s.
Proof.
  intros C V Hsilent. unfold run_tests. cbv zeta. rewrite C, V. cbn [andb].
  pose proof (check_cuda_error_silent true s (or_introl eq_refl)) as Hc.
  destruct (check_cuda_error true s) as [error s0]. simpl in Hc.
  destruct error; [ exact Hc | ].
  destruct (target_devices kwargs (world s0)) as [devices w].
  destruct devices as [devices0 | ]; [ | exact Hc ].
  rewrite run_tests_loop_concise_silent by exact Hsilent. exact Hc.
Qed.

Lemma run_tests_concise_silent_witness :
  cout (snd (run_tests (rt := constant_runtime 7 (Some 2) 0 0 true) []
               (one_kwarg "concise" "") start)) = [].
Proof.
  apply (run_tests_concise_silent unit (constant_runtime 7 (Some 2) 0 0 true) []
           (one_kwarg "concise" "") start).
  - reflexivity.
  - reflexivity.
  - intros a k w. reflexivity.
Defined.



(** X18. Without [verbose] and without a [device] argument, when no error
    is pending and the device count is 0 (or was not stored), [run_tests]
    returns true without running a test. *)
Theorem run_tests_no_device_passes (World : Type) (rt : Runtime World)
    (args : ArgumentSet) (kwargs : ArgumentMap) (s : State World)
    (w1 w2 : World) (stored : option Z) :
  count kwargs "verbose" = false ->
  kwargs "device"%string = None ->
  hipGetLastError (world s) = (0, w1) ->
  hipGetDeviceCount w1 = (stored, w2) ->
  out_param 0 stored = 0 ->
  run_tests args kwargs s = (Returned true, {| world := w2; cout := cout s |}).
Proof.
  intros V Hk Hlast Hcount Hzero.
  unfold run_tests, check_cuda_error. cbv zeta. rewrite V, Hlast. cbn.
  assert (Hdev : match kwargs "device"%string with
                 | Some value => atoi value < 0
                 | None => True
                 end) by (rewrite Hk; exact I).
  rewrite (target_devices_iota kwargs w1 w2 stored Hdev Hcount) by lia.
  rewrite Hzero. reflexivity.
Qed.

Lemma run_tests_no_device_passes_witness :
  run_tests (rt := constant_runtime 0 None 0 0 false) [] no_kwargs start
  = (Returned true, start).
Proof.
  apply (run_tests_no_device_passes unit (constant_runtime 0 None 0 0 false)
           [] no_kwargs start tt tt None); reflexivity.
Defined.

(** X19. An error pending when [run_tests] is entered makes it return false
    at once: the world is the one [hipGetLastError] left, so no device was
    selected and no test run. *)
Theorem run_tests_pending_error (World : Type) (rt : Runtime World)
    (args : ArgumentSet) (kwargs : ArgumentMap) (s : State World) :
  count kwargs "verbose" && count kwargs "concise" = false ->
  fst (hipGetLastError (world s)) <> 0 ->
  fst (run_tests args kwargs s) = Returned false /\
  world (snd (run_tests args kwargs s)) = snd (hipGetLastError (world s)).
Proof.
  intros B Herr. unfold run_tests. cbv zeta. rewrite B.
  pose proof (check_cuda_error_fst (count kwargs "concise") s) as F.
  pose proof (check_cuda_error_world (count kwargs "concise") s) as W.
  destruct (check_cuda_error (count kwargs "concise") s) as [error s0].
  simpl in F, W. apply Z.eqb_neq in Herr. rewrite Herr in F. subst error.
  split; [ reflexivity | exact W ].
Qed.

Lemma run_tests_pending_error_witness :
  fst (run_tests (rt := constant_runtime 7 (Some 2) 0 0 true) [] no_kwargs start)
    = Returned false /\
  world (snd (run_tests (rt := constant_runtime 7 (Some 2) 0 0 true) []
                no_kwargs start)) = tt.
Proof.
  apply (run_tests_pending_error unit (constant_runtime 7 (Some 2) 0 0 true)
           [] no_kwargs start).
  - reflexivity.
  - simpl. discriminate.
Defined.

(** *** A single targeted device *)

Section SingleDevice.

Context {World : Type} (rt : Runtime World) (answer : World -> Z * World).
Variables (args : ArgumentSet) (kwargs : ArgumentMap).

Lemma check_cuda_error_other_attributes (concise : bool) (s : State World) :
  check_cuda_error (rt := with_hipFuncGetAttributes answer rt) concise s =
  check_cuda_error (rt := rt) concise s.
Proof. reflexivity. Qed.

Lemma list_devices_loop_other_attributes
    (fuel : nat) (dev deviceCount selected_device : Z) (s : State World) :
  list_devices_loop (rt := with_hipFuncGetAttributes answer rt)
    fuel dev deviceCount selected_device s =
  list_devices_loop (rt := rt) fuel dev deviceCount selected_device s.
Proof.
  revert dev s. induction fuel as [| fuel IH]; intros dev s; [ reflexivity | ].
  cbn [list_devices_loop]. destruct (dev <? deviceCount); [ | reflexivity ].
  rewrite IH. reflexivity.
Qed.

Lemma list_devices_other_attributes (s : State World) :
  list_devices (rt := with_hipFuncGetAttributes answer rt) s =
  list_devices (rt := rt) s.
Proof.
  unfold list_devices.
  change (@hipGetDeviceCount World (with_hipFuncGetAttributes answer rt))
    with (@hipGetDeviceCount World rt).
  change (@hipGetDevice World (with_hipFuncGetAttributes answer rt))
    with (@hipGetDevice World rt).
  change (@indeterminate_int World (with_hipFuncGetAttributes answer rt))
    with (@indeterminate_int World rt).
  destruct (hipGetDeviceCount (world s)) as [stored w].
  match goal with
  | |- context [ hipGetDevice ?x ] => destruct (hipGetDevice x) as [stored' w']
  end.
  rewrite list_devices_loop_other_attributes. reflexivity.
Qed.

Lemma target_devices_other_attributes (w : World) :
  target_devices (rt := with_hipFuncGetAttributes answer rt) kwargs w =
  target_devices (rt := rt) kwargs w.
Proof. reflexivity. Qed.

(** With at most one targeted device the loop never asks for the binary. *)
Lemma run_tests_loop_other_attributes (concise : bool) (size : nat)
    (device : list Z) (result : bool) (s : State World) :
  (size <= 1)%nat ->
  run_tests_loop (rt := with_hipFuncGetAttributes answer rt)
    args kwargs concise size device result s =
  run_tests_loop (rt := rt) args kwargs concise size device result s.
Proof.
  intros Hsize. revert result s.
  induction device as [| d next IH]; intros result s; [ reflexivity | ].
  cbn [run_tests_loop].
  destruct (Nat.ltb_spec 1 size) as [H | _]; [ lia | ].
  change (@hipSetDevice World (with_hipFuncGetAttributes answer rt))
    with (@hipSetDevice World rt).
  change (@hipGetDeviceProperties World (with_hipFuncGetAttributes answer rt))
    with (@hipGetDeviceProperties World rt).
  change (@indeterminate_prop World (with_hipFuncGetAttributes answer rt))
    with (@indeterminate_prop World rt).
  change (@UnitTestDriver_run_tests World (with_hipFuncGetAttributes answer rt))
    with (@UnitTestDriver_run_tests World rt).
  rewrite check_cuda_error_other_attributes.
  match goal with
  | |- context [ check_cuda_error concise ?x ] =>
      destruct (check_cuda_error concise x) as [error s1]
  end.
  destruct error; [ reflexivity | ].
  destruct (UnitTestDriver_run_tests args kwargs (world s1)) as [[passed printed] w].
  apply IH.
Qed.

End SingleDevice.

(** X20. When a [device] argument names one device, [run_tests] does not
    ask whether a binary exists for it: whatever [hipFuncGetAttributes]
    would answer, the run is the same. *)
Theorem run_tests_single_device_ignores_binary
    (World : Type) (rt : Runtime World) (answer : World -> Z * World)
    (args : ArgumentSet) (kwargs : ArgumentMap) (s : State World)
    (value : string) :
  kwargs "device"%string = Some value ->
  0 <= atoi value ->
  run_tests (rt := with_hipFuncGetAttributes answer rt) args kwargs s =
  run_tests (rt := rt) args kwargs s.
Proof.
  intros Hk Hv. unfold run_tests. cbv zeta.
  change (@EXIT_FAILURE World (with_hipFuncGetAttributes answer rt))
    with (@EXIT_FAILURE World rt).
  destruct (count kwargs "verbose" && count kwargs "concise"); [ reflexivity | ].
  rewrite check_cuda_error_other_attributes.
  destruct (check_cuda_error (count kwargs "concise") s) as [error s0].
  destruct error; [ reflexivity | ].
  rewrite list_devices_other_attributes, target_devices_other_attributes.
  rewrite (target_devices_one kwargs _ value Hk Hv).
  apply run_tests_loop_other_attributes. simpl. lia.
Qed.

Lemma run_tests_single_device_ignores_binary_witness :
  run_tests (rt := with_hipFuncGetAttributes (fun w => (1, w))
                     (constant_runtime 0 (Some 4) 0 2 true))
    [] (one_kwarg "device" "2") start =
  run_tests (rt := constant_runtime 0 (Some 4) 0 2 true)
    [] (one_kwarg "device" "2") start.
Proof.
  apply (run_tests_single_device_ignores_binary unit
           (constant_runtime 0 (Some 4) 0 2 true) (fun w => (1, w))
           [] (one_kwarg "device" "2") start "2").
  - reflexivity.
  - simpl. lia.
Defined.

(** X21. The plain run on one named device: concise, not verbose, no error
    pending before or after the device is selected; [run_tests] selects the
    device, runs the base driver once and returns its result, and
    [std::cout] gains what the base driver printed and nothing else. *)
Theorem run_tests_single_device_concise (World : Type) (rt : Runtime World)
    (args : ArgumentSet) (kwargs : ArgumentMap) (s : State World)
    (value : string) (w1 w2 w3 : World) (passed : bool) (printed : list Out) :
  count kwargs "concise" = true ->
  count kwargs "verbose" = false ->
  kwargs "device"%string = Some value ->
  0 <= atoi value ->
  hipGetLastError (world s) = (0, w1) ->
  hipGetLastError (hipSetDevice (atoi value) w1) = (0, w2) ->
  UnitTestDriver_run_tests args kwargs w2 = (passed, printed, w3) ->
  run_tests args kwargs s =
    (Returned passed, {| world := w3; cout := cout s ++ printed |}).
Proof.
  intros C V Hk Hv H1 H2 Hbase.
  unfold run_tests, check_cuda_error. cbv zeta. rewrite C, V, H1. cbn.
  rewrite (target_devices_one kwargs _ value Hk Hv).
  cbn. unfold check_cuda_error. cbn. rewrite H2. cbn. rewrite Hbase.
  reflexivity.
Qed.

Lemma run_tests_single_device_concise_witness :
  run_tests (rt := constant_runtime 0 (Some 4) 0 2 false) []
    (fun k => if String.eqb k "concise" then Some ""%string
              else if String.eqb k "device" then Some "2"%string else None)
    start
  = (Returned false, start).
Proof.
  apply (run_tests_single_device_concise unit
           (constant_runtime 0 (Some 4) 0 2 false) []
           (fun k => if String.eqb k "concise" then Some ""%string
                     else if String.eqb k "device" then Some "2"%string else None)
           start "2" tt tt tt false []); try reflexivity.
  simpl. lia.
Defined.

(** ** [list_devices] without devices *)

(** X22. With a device count of 0 or below, [list_devices] asks for the
    properties of no device: after the two queries for the count and the
    selected device it prints the no-device line, for a count of exactly 0
    only, and one line end. *)
Theorem list_devices_without_devices (World : Type) (rt : Runtime World)
    (s : State World) (w1 w2 : World) (stored selected : option Z) :
  hipGetDeviceCount (world s) = (stored, w1) ->
  hipGetDevice w1 = (selected, w2) ->
  out_param indeterminate_int stored <= 0 ->
  list_devices s =
    {| world := w2;
       cout := cout s ++
               (if out_param indeterminate_int stored =? 0
                then [Str "There is no device supporting CUDA"; Endl]
                else []) ++ [Endl] |}.
Proof.
  intros Hcount Hdev Hle. unfold list_devices. rewrite Hcount.
  assert (F : Z.to_nat (out_param indeterminate_int stored) = 0%nat) by lia.
  rewrite F.
  destruct (out_param indeterminate_int stored =? 0); cbn; rewrite Hdev; cbn.
  - unfold put. cbn. rewrite <- app_assoc. reflexivity.
  - reflexivity.
Qed.

Lemma list_devices_without_devices_witness :
  list_devices (rt := constant_runtime 0 (Some 0) 0 0 true) start =
    {| world := tt;
       cout := [Str "There is no device supporting CUDA"; Endl; Endl] |}.
Proof.
  apply (list_devices_without_devices unit
           (constant_runtime 0 (Some 0) 0 0 true) start tt tt (Some 0) (Some 0)).
  - reflexivity.
  - reflexivity.
  - simpl. lia.
Defined.

(** ** The devices [list_devices] describes *)

Lemma list_devices_loop_fold {World : Type} {rt : Runtime World}
    (m k : nat) (selected_device : Z) (s : State World) :
  list_devices_loop m (Z.of_nat k) (Z.of_nat (k + m)) selected_device s =
  fold_left
    (fun (s : State World) (dev : nat) =>
       list_devices_body (Z.of_nat dev) (Z.of_nat (k + m)) selected_device s)
    (seq k m) s.
Proof.
  revert k s. induction m as [| m IH]; intros k s; [ reflexivity | ].
  cbn [list_devices_loop seq fold_left].
  destruct (Z.ltb_spec (Z.of_nat k) (Z.of_nat (k + S m))) as [_ | H]; [ | lia ].
  replace (Z.of_nat k + 1) with (Z.of_nat (S k)) by lia.
  replace (k + S m)%nat with (S k + m)%nat by lia.
  apply IH.
Qed.

(** X23. For a device count that is not negative, the loop of
    [list_devices] runs its body once for each device [0 .. count-1], in
    ascending order, and then stops. *)
Theorem list_devices_loop_each_device_once (World : Type) (rt : Runtime World)
    (deviceCount selected_device : Z) (s : State World) :
  0 <= deviceCount ->
  list_devices_loop (Z.to_nat deviceCount) 0 deviceCount selected_device s =
  fold_left
    (fun (s : State World) (dev : nat) =>
       list_devices_body (Z.of_nat dev) deviceCount selected_device s)
    (seq 0 (Z.to_nat deviceCount)) s.
Proof.
  intros H.
  pose proof (list_devices_loop_fold (Z.to_nat deviceCount) 0 selected_device s) as F.
  simpl in F. rewrite Z2Nat.id in F by exact H. exact F.
Qed.

Lemma list_devices_loop_each_device_once_witness :
  list_devices_loop (rt := constant_runtime 0 (Some 2) 0 0 true)
    (Z.to_nat 2) 0 2 0 start =
  list_devices_body (rt := constant_runtime 0 (Some 2) 0 0 true) 1 2 0
    (list_devices_body (rt := constant_runtime 0 (Some 2) 0 0 true) 0 2 0 start).
Proof.
  apply (list_devices_loop_each_device_once unit
           (constant_runtime 0 (Some 2) 0 0 true) 2 0 start).
  lia.
Defined.

(** ** The ordinals [target_devices] returns *)

Lemma NoDup_map_of_nat (l : list nat) :
  NoDup l -> NoDup (map Z.of_nat l).
Proof.
  induction 1 as [| x l Hx Hl IH]; simpl; constructor.
  - intros Hin. apply in_map_iff in Hin. destruct Hin as [y [Hy Hin]].
    apply Nat2Z.inj in Hy. subst y. exact (Hx Hin).
  - exact IH.
Qed.

(** X24. Whatever the arguments and the runtime, the ordinals that
    [target_devices] returns are distinct and none is negative. *)
Theorem target_devices_ordinals (World : Type) (rt : Runtime World)
    (kwargs : ArgumentMap) (w w' : World) (devices : list Z) :
  target_devices kwargs w = (Some devices, w') ->
  NoDup devices /\ Forall (fun device => 0 <= device) devices.
Proof.
  unfold target_devices.
  destruct (Z.ltb_spec (match kwargs "device"%string with
                        | Some value => atoi value
                        | None => -1
                        end) 0) as [Hneg | Hpos].
  - destruct (hipGetDeviceCount w) as [stored w1].
    destruct (Z.ltb_spec (out_param 0 stored) 0) as [H | H]; [ discriminate | ].
    rewrite iota_loop_all by exact H.
    intros E. injection E as <- _. split.
    + apply NoDup_map_of_nat, seq_NoDup.
    + apply Forall_forall. intros d Hd.
      apply in_map_iff in Hd. destruct Hd as [x [<- _]]. lia.
  - intros E. injection E as <- _. split.
    + constructor; [ simpl; tauto | constructor ].
    + constructor; [ exact Hpos | constructor ].
Qed.

Lemma target_devices_ordinals_witness :
  NoDup [0; 1; 2] /\ Forall (fun device => 0 <= device) [0; 1; 2].
Proof.
  apply (target_devices_ordinals unit (constant_runtime 0 (Some 3) 0 0 true)
           no_kwargs tt tt [0; 1; 2]).
  reflexivity.
Defined.

End CUDATestDriverFacts.
